(** * Configuration parsing and validation of the Materialize connector

    A shallow embedding of [config/config.go]: the [Config] record, its
    [Validate] method, [registerTranslations] and [Parse], together with
    models of the library calls they make (Go's [strings] and
    [unicode/utf8], [go.uber.org/multierr], the universal translator and
    the struct validator), followed by the properties of the configuration
    specification.

    Go strings are byte strings: they are modelled by [string], whose
    characters are the bytes.  A Go [map[string]string] is a
    [gmap string string]; indexing with an absent key yields the empty
    string. *)

From Stdlib Require Import String Ascii List Arith Lia Bool.
From stdpp Require Import gmap strings.
Import ListNotations.
Open Scope string_scope.
Open Scope nat_scope.

(** ** Go's [strings] package *)

Module GoStrings.

(** [strings.HasPrefix s prefix]. *)
Fixpoint HasPrefix (s pre : string) {struct pre} : bool :=
  match pre, s with
  | EmptyString, _ => true
  | String a pre', String b s' => Ascii.eqb a b && HasPrefix s' pre'
  | String _ _, EmptyString => false
  end.

(** [strings.Index s substr]: the position of the first occurrence of
    [substr] in [s]; [None] stands for Go's [-1]. *)
Fixpoint Index (s substr : string) : option nat :=
  if HasPrefix s substr then Some 0
  else match s with
       | EmptyString => None
       | String _ s' => option_map S (Index s' substr)
       end.

(** [strings.Contains s substr], that is [Index(s, substr) >= 0]. *)
Definition Contains (s substr : string) : bool :=
  match Index s substr with Some _ => true | None => false end.

(** [strings.Count s substr] for a one-byte [substr]. *)
Fixpoint Count (s : string) (c : ascii) : nat :=
  match s with
  | EmptyString => 0
  | String b s' => (if Ascii.eqb b c then 1 else 0) + Count s' c
  end.

(** The slices [s[lo:hi]] and [s[lo:]]. *)
Definition slice (s : string) (lo hi : nat) : string :=
  substring lo (hi - lo) s.

Definition sliceFrom (s : string) (lo : nat) : string :=
  substring lo (String.length s - lo) s.

Definition isUpper (c : ascii) : bool :=
  (65 <=? nat_of_ascii c) && (nat_of_ascii c <=? 90).

Definition lowerByte (c : ascii) : ascii :=
  if isUpper c then ascii_of_nat (nat_of_ascii c + 32) else c.

Definition isASCII (s : string) : bool :=
  forallb (fun c => nat_of_ascii c <? 128) (list_ascii_of_string s).

(** [strings.ToLower] on its ASCII path: when every byte of [s] is below
    [0x80] the upper-case letters are shifted by ['a' - 'A'] and all other
    bytes are kept.  Every string the configuration code lowers is ASCII
    (a fixed template instantiated with a struct field name). *)
Fixpoint ToLower (s : string) : string :=
  match s with
  | EmptyString => EmptyString
  | String c s' => String (lowerByte c) (ToLower s')
  end.

(** [strings.Join elems sep]. *)
Fixpoint Join (elems : list string) (sep : string) : string :=
  match elems with
  | [] => EmptyString
  | [e] => e
  | e :: rest => e ++ sep ++ Join rest sep
  end.

(** [strings.TrimSpace] restricted to the ASCII white space
    ['\t', '\n', '\v', '\f', '\r', ' ']. *)
Definition isSpace (c : ascii) : bool :=
  let n := nat_of_ascii c in ((9 <=? n) && (n <=? 13)) || (n =? 32).

Fixpoint TrimLeft (s : string) : string :=
  match s with
  | EmptyString => EmptyString
  | String c s' => if isSpace c then TrimLeft s' else s
  end.

Fixpoint TrimRight (s : string) : string :=
  match s with
  | EmptyString => EmptyString
  | String c s' =>
      match TrimRight s' with
      | EmptyString => if isSpace c then EmptyString else String c EmptyString
      | t => String c t
      end
  end.

Definition TrimSpace (s : string) : string := TrimRight (TrimLeft s).

(** [strings.Repeat s count]. *)
Fixpoint Repeat (s : string) (count : nat) : string :=
  match count with
  | 0 => EmptyString
  | S n => s ++ Repeat s n
  end.

End GoStrings.

(** ** Go's [strconv] and [unicode/utf8] *)

Module Strconv.

Definition digit (n : nat) : ascii := ascii_of_nat (48 + n).

Fixpoint itoa_fuel (fuel n : nat) (acc : string) : string :=
  match fuel with
  | 0 => acc
  | S fuel' =>
      let acc' := String (digit (n mod 10)) acc in
      if n / 10 =? 0 then acc' else itoa_fuel fuel' (n / 10) acc'
  end.

(** [strconv.Itoa] on a non-negative integer. *)
Definition Itoa (n : nat) : string := itoa_fuel (S n) n EmptyString.

End Strconv.

Module Utf8.

(** Number of bytes announced by a leading byte, and the range accepted
    for the second byte (the tables [first] and [acceptRanges]);
    [None] is an invalid leading byte. *)
Definition first (c : nat) : option (nat * (nat * nat)) :=
  if c <? 128 then Some (1, (0, 0))
  else if c <? 194 then None
  else if c <? 224 then Some (2, (128, 191))
  else if c =? 224 then Some (3, (160, 191))
  else if c =? 237 then Some (3, (128, 159))
  else if c <? 240 then Some (3, (128, 191))
  else if c =? 240 then Some (4, (144, 191))
  else if c <? 244 then Some (4, (128, 191))
  else if c =? 244 then Some (4, (128, 143))
  else None.

Definition inRange (lo hi : nat) (c : ascii) : bool :=
  (lo <=? nat_of_ascii c) && (nat_of_ascii c <=? hi).

Definition isCont (c : ascii) : bool := inRange 128 191 c.

(** Width in bytes of the rune that starts with byte [c] and is followed
    by [rest]; a short or ill-formed sequence has width 1. *)
Definition runeSize (c : ascii) (rest : string) : nat :=
  match first (nat_of_ascii c) with
  | None => 1
  | Some (1, _) => 1
  | Some (size, (lo, hi)) =>
      if String.length rest <? size - 1 then 1
      else match rest with
           | String c1 rest1 =>
               if negb (inRange lo hi c1) then 1
               else if size =? 2 then 2
               else match rest1 with
                    | String c2 rest2 =>
                        if negb (isCont c2) then 1
                        else if size =? 3 then 3
                        else match rest2 with
                             | String c3 _ => if negb (isCont c3) then 1 else 4
                             | EmptyString => 1
                             end
                    | EmptyString => 1
                    end
           | EmptyString => 1
           end
  end.

(** The loop of [utf8.RuneCountInString]: [skip] is the number of bytes
    of the current rune still to be stepped over. *)
Fixpoint countFrom (skip : nat) (s : string) : nat :=
  match s with
  | EmptyString => 0
  | String c rest =>
      match skip with
      | S k => countFrom k rest
      | 0 => S (countFrom (runeSize c rest - 1) rest)
      end
  end.

Definition RuneCountInString (s : string) : nat := countFrom 0 s.

End Utf8.

(** ** Go errors and [go.uber.org/multierr] *)

(** The error values that can arise: [errors.New], the combined error of
    [multierr], and the errors of the universal translator (whose texts are
    abbreviated to their fixed leading words). *)
#[warnings="-register-all"]
Inductive error : Type :=
| errorString (s : string)
| multiError (errors : list error)
| ErrConflictingTranslation (key : string)
| ErrMissingBracket (key : string)
| ErrBadParamSyntax (key param : string)
| ErrUnknowTranslation.

(** The [Error()] method.  A combined error prints its members on one line,
    separated by a semicolon and a space. *)
Fixpoint Error (e : error) : string :=
  match e with
  | errorString s => s
  | multiError errs => GoStrings.Join (map Error errs) "; "
  | ErrConflictingTranslation _ => "error: conflicting key"
  | ErrMissingBracket _ => "error: missing bracket '{}', in translation"
  | ErrBadParamSyntax _ _ => "error: bad parameter syntax, missing parameter"
  | ErrUnknowTranslation => "error: unknown translation"
  end.

Module Multierr.

(** The members of an error: those of a combined error, else itself. *)
Definition Errors (e : error) : list error :=
  match e with
  | multiError errs => errs
  | _ => [e]
  end.

(** [multierr.Append left right]; [None] is Go's [nil]. *)
Definition Append (left right : option error) : option error :=
  match left, right with
  | None, _ => right
  | _, None => left
  | Some l, Some r => Some (multiError (Errors l ++ Errors r))
  end.

End Multierr.

(** ** Locales and the universal translator *)

Module Locales.
Record Translator := { Locale : string }.
End Locales.

Module En.
(** [en.New()]. *)
Definition New : Locales.Translator := {| Locales.Locale := "en" |}.
End En.

Module UT.

(** A registered translation: its text and, for each placeholder
    [{i}], the positions where it starts and ends. *)
Record transText := { text : string; indexes : list nat }.

Record Translator :=
  { Locale : string; translations : gmap string transText }.

Definition newTranslator (l : Locales.Translator) : Translator :=
  {| Locale := Locales.Locale l; translations := ∅ |}.

Record UniversalTranslator :=
  { translators : gmap string Translator; fallback : option Translator }.

Fixpoint addSupported (fb : Locales.Translator)
    (supported : list Locales.Translator) (t : UniversalTranslator)
    : UniversalTranslator :=
  match supported with
  | [] => t
  | v :: rest =>
      let trans := newTranslator v in
      addSupported fb rest
        {| translators :=
             <[GoStrings.ToLower (Locale trans) := trans]> (translators t);
           fallback :=
             if String.eqb (Locales.Locale fb) (Locales.Locale v)
             then Some trans else fallback t |}
  end.

(** [ut.New fallback supportedLocales...]. *)
Definition New (fb : Locales.Translator)
    (supported : list Locales.Translator) : UniversalTranslator :=
  let t := addSupported fb supported {| translators := ∅; fallback := None |} in
  match fallback t with
  | None => {| translators := translators t;
               fallback := Some (newTranslator fb) |}
  | Some _ => t
  end.

(** [uni.GetTranslator locale]: the translator and whether it was found;
    the fallback translator when it was not. *)
Definition GetTranslator (t : UniversalTranslator) (locale : string)
    : option Translator * bool :=
  match translators t !! GoStrings.ToLower locale with
  | Some trans => (Some trans, true)
  | None => (fallback t, false)
  end.

(** The placeholder loop of [Add]: for [i = 0 .. lb - 1] locate [{i}]. *)
Fixpoint addIndexes (key txt : string) (i n : nat) (acc : list nat)
    : error + list nat :=
  match n with
  | 0 => inr acc
  | S n' =>
      let s := "{" ++ Strconv.Itoa i ++ "}" in
      match GoStrings.Index txt s with
      | None => inl (ErrBadParamSyntax key s)
      | Some idx =>
          addIndexes key txt (S i) n' (acc ++ [idx; idx + String.length s])
      end
  end.

(** [t.Add key text override]: the error (if any) and the translator
    afterwards. *)
Definition Add (t : Translator) (key txt : string) (override : bool)
    : option error * Translator :=
  let ok := match translations t !! key with Some _ => true | None => false end in
  if ok && negb override then (Some (ErrConflictingTranslation key), t)
  else
    let lb := GoStrings.Count txt "{" in
    let rb := GoStrings.Count txt "}" in
    if negb (lb =? rb) then (Some (ErrMissingBracket key), t)
    else match addIndexes key txt 0 lb [] with
         | inl e => (Some e, t)
         | inr idxs =>
             (None, {| Locale := Locale t;
                       translations :=
                         <[key := {| text := txt; indexes := idxs |}]>
                           (translations t) |})
         end.

(** The loop of [T]: copy the text up to each placeholder, then the next
    parameter.  (Go indexes [params] by a counter and would panic on a
    placeholder without parameter; the translations registered below have
    one placeholder and are applied to one parameter.) *)
Fixpoint fill (txt : string) (idxs : list nat) (params : list string)
    (start : nat) : string :=
  match idxs with
  | e :: start' :: rest =>
      GoStrings.slice txt start e ++ hd EmptyString params
        ++ fill txt rest (tl params) start'
  | _ => GoStrings.sliceFrom txt start
  end.

Definition unknownTranslation : string := EmptyString.

(** [t.T key params...]. *)
Definition T (t : Translator) (key : string) (params : list string)
    : string * option error :=
  match translations t !! key with
  | None => (unknownTranslation, Some ErrUnknowTranslation)
  | Some trans => (fill (text trans) (indexes trans) params 0, None)
  end.

End UT.

(** ** The struct validator *)

Module Validator.

(** The validation tags used by the configuration: [required], [url]
    and [max=<param>]. *)
Inductive cTag := Required | Url | Max (param : nat).

Definition tagName (t : cTag) : string :=
  match t with
  | Required => "required"
  | Url => "url"
  | Max _ => "max"
  end.

(** A struct field as the validator sees it by reflection: its name, its
    (string) value and the tags of its [validate] annotation, in order. *)
Record StructField :=
  { fieldName : string; fieldValue : string; fieldTags : list cTag }.

(** A failed field: its namespace, its name and the tag that failed. *)
Record FieldError := { Namespace : string; Field : string; Tag : string }.

Abbreviation ValidationErrors := (list FieldError).

Definition TranslationFunc : Type := UT.Translator -> FieldError -> string.

Definition RegisterTranslationsFunc : Type :=
  UT.Translator -> option error * UT.Translator.

(** The validator instance: the translation functions registered per tag
    (for the one translator in use). *)
Record Validate := { transTagFunc : gmap string TranslationFunc }.

(** [validator.New()]. *)
Definition New : Validate := {| transTagFunc := ∅ |}.

(** [validate.RegisterTranslation tag trans registerFn translationFn]:
    runs [registerFn] on the translator and, unless it fails, records
    [translationFn] for [tag]. *)
Definition RegisterTranslation (v : Validate) (tag : string)
    (trans : UT.Translator) (registerFn : RegisterTranslationsFunc)
    (translationFn : TranslationFunc)
    : option error * Validate * UT.Translator :=
  match registerFn trans with
  | (Some err, trans') => (Some err, v, trans')
  | (None, trans') =>
      (None, {| transTagFunc := <[tag := translationFn]> (transTagFunc v) |},
       trans')
  end.

(** The default text of a field error. *)
Definition fieldErrorText (fe : FieldError) : string :=
  "Key: '" ++ Namespace fe ++ "' Error:Field validation for '" ++ Field fe
    ++ "' failed on the '" ++ Tag fe ++ "' tag".

(** [fe.Translate ut]: the registered translation of the failed tag, or
    the default text when none is registered. *)
Definition Translate (v : Validate) (fe : FieldError) (ut : UT.Translator)
    : string :=
  match transTagFunc v !! Tag fe with
  | None => fieldErrorText fe
  | Some fn => fn ut fe
  end.

Section BakedIn.

(** The [url] rule is decided by the validator through Go's [net/url]
    parser; the development is parametric in that predicate. *)
Variable isURL : string -> bool.

(** [required] on a string: it is not the zero value. *)
Definition hasValue (v : string) : bool := negb (String.eqb v EmptyString).

(** [max=param] on a string: its number of runes is at most [param]. *)
Definition isMax (param : nat) (v : string) : bool :=
  Utf8.RuneCountInString v <=? param.

Definition runTag (t : cTag) (v : string) : bool :=
  match t with
  | Required => hasValue v
  | Url => isURL v
  | Max param => isMax param v
  end.

(** The tags of one field are run in order; the first that fails is
    reported and the rest of the field's tags are skipped. *)
Fixpoint traverseField (ns name v : string) (tags : list cTag)
    : option FieldError :=
  match tags with
  | [] => None
  | t :: rest =>
      if runTag t v then traverseField ns name v rest
      else Some {| Namespace := ns; Field := name; Tag := tagName t |}
  end.

(** The fields are visited in declaration order. *)
Fixpoint validateStruct (structName : string) (fields : list StructField)
    : ValidationErrors :=
  match fields with
  | [] => []
  | f :: rest =>
      match traverseField (structName ++ "." ++ fieldName f)
              (fieldName f) (fieldValue f) (fieldTags f) with
      | Some fe => fe :: validateStruct structName rest
      | None => validateStruct structName rest
      end
  end.

(** [validate.Struct s]: [None] (Go's [nil]) when no field failed, else
    the non-empty list of field errors. *)
Definition Struct (structName : string) (fields : list StructField)
    : option ValidationErrors :=
  match validateStruct structName fields with
  | [] => None
  | errs => Some errs
  end.

End BakedIn.

End Validator.

(** ** The configuration: [config/config.go] *)

(** [ConfigKeyURL] is the config name for a connection URL. *)
Definition ConfigKeyURL : string := "url".
(** [ConfigKeyTable] is the config name for a table. *)
Definition ConfigKeyTable : string := "table".
(** [ConfigKeyKey] is the config name for a key. *)
Definition ConfigKeyKey : string := "key".

(** Go's map indexing [cfg[k]] on a [map[string]string]: the zero value,
    the empty string, when the key is absent. *)
Definition index (cfg : gmap string string) (k : string) : string :=
  default EmptyString (cfg !! k).

(** [Config] represents configuration needed for Materialize. *)
Record Config := { URL : string; Table : string; Key : string }.

(** The zero value [Config{}]. *)
Definition zeroConfig : Config :=
  {| URL := EmptyString; Table := EmptyString; Key := EmptyString |}.

(** The fields of [Config] with their [validate] tags, in declaration
    order: [URL] is [required,url]; [Table] and [Key] are [max=63]. *)
Definition configFields (c : Config) : list Validator.StructField :=
  [ {| Validator.fieldName := "URL"; Validator.fieldValue := URL c;
       Validator.fieldTags := [Validator.Required; Validator.Url] |};
    {| Validator.fieldName := "Table"; Validator.fieldValue := Table c;
       Validator.fieldTags := [Validator.Max 63] |};
    {| Validator.fieldName := "Key"; Validator.fieldValue := Key c;
       Validator.fieldTags := [Validator.Max 63] |} ].

(** The double quote character, and a string between double quotes. *)
Definition dquote : ascii := "034"%char.

Definition quoted (s : string) : string :=
  String dquote (s ++ String dquote EmptyString).

(** The three message templates: the placeholder between double quotes,
    followed by the reason. *)
Definition requiredText : string := quoted "{0}" ++ " config value must be set".
Definition urlText : string := quoted "{0}" ++ " config value must be a valid url".
Definition maxText : string := quoted "{0}" ++ " config value is too long".

(** The translation function registered for a tag: instantiate the
    template of [key] with the field name and lower the result. *)
Definition translationFn (key : string) : Validator.TranslationFunc :=
  fun ut fe =>
    let '(t, _) := UT.T ut key [Validator.Field fe] in
    GoStrings.ToLower t.

(** [registerTranslations] registers custom translations (error messages)
    for validation errors. *)
Definition registerTranslations (validate : Validator.Validate)
    (uniTranslator : UT.Translator)
    : option error * Validator.Validate * UT.Translator :=
  (* register a custom translation for the required tag *)
  match Validator.RegisterTranslation validate "required" uniTranslator
          (fun ut => UT.Add ut "required" requiredText true)
          (translationFn "required") with
  | (Some err, validate, uniTranslator) => (Some err, validate, uniTranslator)
  | (None, validate, uniTranslator) =>
  (* register a custom translation for the url tag *)
  match Validator.RegisterTranslation validate "url" uniTranslator
          (fun ut => UT.Add ut "url" urlText true)
          (translationFn "url") with
  | (Some err, validate, uniTranslator) => (Some err, validate, uniTranslator)
  | (None, validate, uniTranslator) =>
  (* register a custom translation for the max tag *)
  match Validator.RegisterTranslation validate "max" uniTranslator
          (fun ut => UT.Add ut "max" maxText true)
          (translationFn "max") with
  | (Some err, validate, uniTranslator) => (Some err, validate, uniTranslator)
  | (None, validate, uniTranslator) => (None, validate, uniTranslator)
  end end end.

Section Config.

Variable isURL : string -> bool.

(** The loop that collects all validation errors into one. *)
Definition collect (validate : Validator.Validate)
    (uniTranslator : UT.Translator)
    (validationErrors : Validator.ValidationErrors) : option error :=
  fold_left
    (fun resultErr validationError =>
       Multierr.Append resultErr
         (Some (errorString
                  (Validator.Translate validate validationError uniTranslator))))
    validationErrors None.

(** [Validate] validates the [Config]; [None] is Go's [nil]. *)
Definition Validate (c : Config) : option error :=
  (* init a translator and a universal translator *)
  let translator := En.New in
  let uni := UT.New translator [translator] in
  match UT.GetTranslator uni "en" with
  | (_, false) | (None, _) => Some (errorString "translator not found")
  | (Some uniTranslator, true) =>
      (* init a new instance of a validator *)
      let validate := Validator.New in
      (* register custom translations *)
      match registerTranslations validate uniTranslator with
      | (Some err, _, _) => Some err
      | (None, validate, uniTranslator) =>
          (* collect all validation errors into one *)
          match Validator.Struct isURL "Config" (configFields c) with
          | Some validationErrors =>
              collect validate uniTranslator validationErrors
          | None => None
          end
      end
  end.

(** [Parse] attempts to parse the raw configuration into a [Config]. *)
Definition Parse (cfg : gmap string string) : Config * option error :=
  let config :=
    {| URL := index cfg ConfigKeyURL;
       Table := index cfg ConfigKeyTable;
       Key := index cfg ConfigKeyKey |} in
  match Validate config with
  | Some err => (zeroConfig, Some err)
  | None => (config, None)
  end.

End Config.

(** ** The rules of the specification *)

(** The four field rules, in the order of the fields they belong to. *)
Inductive Rule := UrlRequired | UrlValid | TableMax | KeyMax.

Definition rules : list Rule := [UrlRequired; UrlValid; TableMax; KeyMax].

Definition ruleField (r : Rule) : string :=
  match r with
  | UrlRequired | UrlValid => "url"
  | TableMax => "table"
  | KeyMax => "key"
  end.

Definition ruleReason (r : Rule) : string :=
  match r with
  | UrlRequired => "must be set"
  | UrlValid => "must be a valid url"
  | TableMax | KeyMax => "is too long"
  end.

(** The message form written in the specification:
    [<field> config value <reason>]. *)
Definition specMessage (r : Rule) : string :=
  ruleField r ++ " config value " ++ ruleReason r.

(** The message form of the registered translations: the lower-case field
    name between double quotes, then [config value <reason>]. *)
Definition violationMessage (r : Rule) : string :=
  quoted (ruleField r) ++ " config value " ++ ruleReason r.

(** The error that [multierr.Append] builds from a list of messages. *)
Definition combined (msgs : list string) : option error :=
  match msgs with
  | [] => None
  | [m] => Some (errorString m)
  | _ => Some (multiError (map errorString msgs))
  end.

(** The messages carried by an error value. *)
Definition messages (err : error) : list string :=
  map Error (Multierr.Errors err).

Section Rules.

Variable isURL : string -> bool.

(** The length of a value is its number of characters (runes). *)
Definition violated (c : Config) (r : Rule) : bool :=
  match r with
  | UrlRequired => String.eqb (URL c) EmptyString
  | UrlValid => negb (String.eqb (URL c) EmptyString) && negb (isURL (URL c))
  | TableMax => 63 <? Utf8.RuneCountInString (Table c)
  | KeyMax => 63 <? Utf8.RuneCountInString (Key c)
  end.

(** The violated rules of a configuration, in field order. *)
Definition violations (c : Config) : list Rule :=
  List.filter (violated c) rules.

End Rules.

(** The configuration that [Parse] builds from the raw mapping. *)
Definition rawConfig (cfg : gmap string string) : Config :=
  {| URL := index cfg ConfigKeyURL;
     Table := index cfg ConfigKeyTable;
     Key := index cfg ConfigKeyKey |}.

(** ** An instance of the [url] predicate

    The scheme scan of Go's [net/url] ([getScheme]): the string starts
    with a letter, continues with letters, digits, [+], [-] or [.], and
    reaches a colon.  The validator's rule rejects a URL without scheme;
    this instance is used to run the model on concrete inputs. *)

Module Url.

Definition isLetter (c : ascii) : bool :=
  let n := nat_of_ascii c in
  ((97 <=? n) && (n <=? 122)) || ((65 <=? n) && (n <=? 90)).

Definition isSchemeSign (c : ascii) : bool :=
  let n := nat_of_ascii c in
  ((48 <=? n) && (n <=? 57)) || (n =? 43) || (n =? 45) || (n =? 46).

Fixpoint scanScheme (atStart : bool) (s : string) : bool :=
  match s with
  | EmptyString => false
  | String c rest =>
      if isLetter c then scanScheme false rest
      else if isSchemeSign c then
             if atStart then false else scanScheme false rest
      else if Ascii.eqb c ":" then negb atStart
      else false
  end.

Definition hasScheme (rawURL : string) : bool := scanScheme true rawURL.

End Url.

(** ** The registered translations and the field errors of the rules *)

(** The validator and the translator after [registerTranslations]. *)
Definition registered : option error * Validator.Validate * UT.Translator :=
  registerTranslations Validator.New (UT.newTranslator En.New).

Definition registeredValidate : Validator.Validate := snd (fst registered).
Definition registeredTranslator : UT.Translator := snd registered.

(** The struct field a rule belongs to and the tag that reports it. *)
Definition ruleStructField (r : Rule) : string :=
  match r with
  | UrlRequired | UrlValid => "URL"
  | TableMax => "Table"
  | KeyMax => "Key"
  end.

Definition ruleTag (r : Rule) : Validator.cTag :=
  match r with
  | UrlRequired => Validator.Required
  | UrlValid => Validator.Url
  | TableMax | KeyMax => Validator.Max 63
  end.

Definition ruleFieldError (r : Rule) : Validator.FieldError :=
  {| Validator.Namespace := "Config." ++ ruleStructField r;
     Validator.Field := ruleStructField r;
     Validator.Tag := Validator.tagName (ruleTag r) |}.

(** ** Sample inputs *)

Definition exampleURL : string := "https://materialize.example.com".

(** The example of the specification: a URL, a table and a key. *)
Definition exampleInput : gmap string string :=
  <["url" := exampleURL]> (<["table" := "t1"]> (<["key" := "k1"]> ∅)).

(** No [url]; a table of 64 characters. *)
Definition missingURLLongTable : gmap string string :=
  <["table" := GoStrings.Repeat "a" 64]> ∅.

Definition withTable (table : string) : gmap string string :=
  <["url" := exampleURL]> (<["table" := table]> ∅).

Definition withKey (key : string) : gmap string string :=
  <["url" := exampleURL]> (<["key" := key]> ∅).

Definition notAURL : gmap string string := <["url" := "not a url"]> ∅.

(** A valid [url], a table of 63 characters and a key of 64. *)
Definition table63key64 : gmap string string :=
  <["url" := exampleURL]>
    (<["table" := GoStrings.Repeat "a" 63]>
       (<["key" := GoStrings.Repeat "k" 64]> ∅)).

(** The raw mapping that holds the three fields of a configuration under
    their keys. *)
Definition toMap (c : Config) : gmap string string :=
  <[ConfigKeyURL := URL c]>
    (<[ConfigKeyTable := Table c]> (<[ConfigKeyKey := Key c]> ∅)).

(** Two configurations with different invalid urls and long tables. *)
Definition invalidA : Config :=
  {| URL := "not a url"; Table := GoStrings.Repeat "a" 64;
     Key := EmptyString |}.

Definition invalidB : Config :=
  {| URL := "//user:secret@host/db"; Table := GoStrings.Repeat "b" 70;
     Key := "k" |}.

(** A valid [url] with a table of 63 bytes that are not UTF-8, and one
    with a table and a key of 253 bytes. *)
Definition rawBytesTable : gmap string string :=
  withTable (GoStrings.Repeat (String (ascii_of_nat 255) EmptyString) 63).

Definition hugeTableAndKey : gmap string string :=
  <["url" := exampleURL]>
    (<["table" := GoStrings.Repeat "a" 253]>
       (<["key" := GoStrings.Repeat "k" 253]> ∅)).

(** ** Lemmas on strings *)

Section StringFacts.

Import GoStrings.

Lemma append_nil_l (s : string) : EmptyString ++ s = s.
Proof. reflexivity. Qed.

Lemma append_cons (a : ascii) (s t : string) :
  String a s ++ t = String a (s ++ t).
Proof. reflexivity. Qed.

Lemma append_nil_r (s : string) : s ++ EmptyString = s.
Proof.
  induction s as [|a s IH]; [reflexivity |].
  now rewrite append_cons, IH.
Qed.

Lemma append_assoc (s t u : string) : (s ++ t) ++ u = s ++ t ++ u.
Proof.
  induction s as [|a s IH]; [reflexivity |].
  now rewrite !append_cons, IH.
Qed.

Lemma HasPrefix_app (sub post : string) : HasPrefix (sub ++ post) sub = true.
Proof.
  induction sub as [|a sub IH]; [reflexivity |].
  rewrite append_cons. simpl. now rewrite Ascii.eqb_refl, IH.
Qed.

Lemma HasPrefix_inv (s sub : string) :
  HasPrefix s sub = true -> exists post, s = sub ++ post.
Proof.
  revert s; induction sub as [|a sub IH]; intros s H; simpl in *.
  - now exists s.
  - destruct s as [|b s]; [discriminate |].
    apply andb_true_iff in H as [Hab Hs].
    apply Ascii.eqb_eq in Hab; subst b.
    destruct (IH _ Hs) as [post ->]. now exists post.
Qed.

Lemma Contains_cons (a : ascii) (s sub : string) :
  Contains s sub = true -> Contains (String a s) sub = true.
Proof.
  unfold Contains; simpl.
  destruct (HasPrefix (String a s) sub); [reflexivity |].
  now destruct (Index s sub).
Qed.

Lemma Contains_app (pre sub post : string) :
  Contains (pre ++ sub ++ post) sub = true.
Proof.
  induction pre as [|a pre IH].
  - rewrite append_nil_l. unfold Contains.
    destruct (sub ++ post) eqn:E; simpl; rewrite <- E, HasPrefix_app;
      reflexivity.
  - rewrite append_cons. now apply Contains_cons.
Qed.

Lemma Contains_inv (s sub : string) :
  Contains s sub = true -> exists pre post, s = pre ++ sub ++ post.
Proof.
  unfold Contains.
  induction s as [|a s IH]; simpl.
  - destruct (HasPrefix EmptyString sub) eqn:Hp; [| discriminate].
    intros _. destruct (HasPrefix_inv _ _ Hp) as [post ->].
    now exists EmptyString, post.
  - destruct (HasPrefix (String a s) sub) eqn:Hp.
    + intros _. destruct (HasPrefix_inv _ _ Hp) as [post ->].
      now exists EmptyString, post.
    + destruct (Index s sub); simpl; [| discriminate].
      intros _. destruct (IH eq_refl) as (pre & post & ->).
      now exists (String a pre), post.
Qed.

Lemma Contains_iff (s sub : string) :
  Contains s sub = true <-> exists pre post, s = pre ++ sub ++ post.
Proof.
  split; [apply Contains_inv |].
  intros (pre & post & ->). apply Contains_app.
Qed.

Lemma Contains_refl (s : string) : Contains s s = true.
Proof.
  apply Contains_iff. exists EmptyString, EmptyString.
  now rewrite append_nil_r.
Qed.

Lemma Contains_app_l (s t sub : string) :
  Contains s sub = true -> Contains (s ++ t) sub = true.
Proof.
  rewrite !Contains_iff. intros (pre & post & ->).
  exists pre, (post ++ t). now rewrite !append_assoc.
Qed.

Lemma Contains_app_r (s t sub : string) :
  Contains t sub = true -> Contains (s ++ t) sub = true.
Proof.
  rewrite !Contains_iff. intros (pre & post & ->).
  exists (s ++ pre), post. now rewrite !append_assoc.
Qed.

(** A joined list contains each of its elements. *)
Lemma Contains_Join (elems : list string) (sep m : string) :
  In m elems -> Contains (Join elems sep) m = true.
Proof.
  induction elems as [|e rest IH]; [intros [] |].
  intros [-> | Hin].
  - destruct rest; simpl; [apply Contains_refl |].
    apply Contains_app_l, Contains_refl.
  - destruct rest as [|e' rest]; [destruct Hin |].
    change (Join (e :: e' :: rest) sep)
      with (e ++ sep ++ Join (e' :: rest) sep).
    now apply Contains_app_r, Contains_app_r, IH.
Qed.

(** On an ASCII string the number of runes is the number of bytes. *)
Lemma RuneCountInString_ascii (s : string) :
  isASCII s = true -> Utf8.RuneCountInString s = String.length s.
Proof.
  unfold Utf8.RuneCountInString, isASCII.
  induction s as [|c s IH]; simpl; [reflexivity |].
  intros H. apply andb_true_iff in H as [Hc Hs].
  unfold Utf8.runeSize, Utf8.first. rewrite Hc. simpl.
  now rewrite IH.
Qed.

End StringFacts.

(** ** The validation pipeline, step by step *)

(** The translator registered for the locale [en] is found. *)
Lemma GetTranslator_en :
  UT.GetTranslator (UT.New En.New [En.New]) "en"
  = (Some (UT.newTranslator En.New), true).
Proof. vm_compute. reflexivity. Qed.

(** Registering the three translations raises no error. *)
Lemma registerTranslations_ok : fst (fst registered) = None.
Proof. vm_compute. reflexivity. Qed.

(** The registered translation of a rule's field error is the rule's
    message: the template filled with the field name, in lower case. *)
Lemma Translate_rule (r : Rule) :
  Validator.Translate registeredValidate (ruleFieldError r) registeredTranslator
  = violationMessage r.
Proof. destruct r; vm_compute; reflexivity. Qed.

(** The text handed to [strings.ToLower] is ASCII for every rule, so the
    ASCII path of [ToLower] is the one taken. *)
Lemma translation_input_ascii (r : Rule) :
  GoStrings.isASCII
    (fst (UT.T registeredTranslator (Validator.tagName (ruleTag r))
            [ruleStructField r])) = true.
Proof. destruct r; vm_compute; reflexivity. Qed.

(** Appending messages one by one builds the combined error. *)
Lemma fold_Append (msgs : list string) (m0 : string) (acc : list string) :
  fold_left
    (fun resultErr m => Multierr.Append resultErr (Some (errorString m)))
    msgs (combined (acc ++ [m0]))
  = combined (acc ++ [m0] ++ msgs).
Proof.
  revert m0 acc. induction msgs as [|m msgs IH]; intros m0 acc.
  - now rewrite app_nil_r.
  - simpl fold_left.
    replace (Multierr.Append (combined (acc ++ [m0])) (Some (errorString m)))
      with (combined ((acc ++ [m0]) ++ [m])).
    + rewrite IH. now rewrite <- !app_assoc.
    + destruct acc as [|a [|b acc]]; simpl; try reflexivity.
      now rewrite !map_app, <- !app_assoc.
Qed.

Section Pipeline.

Variable isURL : string -> bool.

Lemma collect_map (v : Validator.Validate) (t : UT.Translator)
    (errs : Validator.ValidationErrors) :
  collect v t errs
  = fold_left
      (fun resultErr m => Multierr.Append resultErr (Some (errorString m)))
      (map (fun fe => Validator.Translate v fe t) errs) None.
Proof.
  unfold collect. generalize (@None error).
  induction errs as [|fe errs IH]; intros acc; simpl; [reflexivity |].
  apply IH.
Qed.

Lemma collect_combined (v : Validator.Validate) (t : UT.Translator)
    (errs : Validator.ValidationErrors) :
  collect v t errs = combined (map (fun fe => Validator.Translate v fe t) errs).
Proof.
  rewrite collect_map.
  destruct (map _ errs) as [|m msgs]; [reflexivity |].
  simpl fold_left. apply (fold_Append msgs m []).
Qed.

(** The field errors of a configuration are those of its violated rules,
    in field order. *)
Lemma validateStruct_violations (c : Config) :
  Validator.validateStruct isURL "Config" (configFields c)
  = map ruleFieldError (violations isURL c).
Proof.
  unfold violations, rules, configFields. simpl.
  unfold Validator.hasValue, Validator.isMax.
  rewrite !Nat.leb_antisym.
  destruct (String.eqb (URL c) EmptyString); simpl;
    [| destruct (isURL (URL c)); simpl];
    destruct (63 <? Utf8.RuneCountInString (Table c));
    destruct (63 <? Utf8.RuneCountInString (Key c)); reflexivity.
Qed.

(** [Validate] returns the combination of the messages of the violated
    rules, in field order. *)
Lemma Validate_combined (c : Config) :
  Validate isURL c = combined (map violationMessage (violations isURL c)).
Proof.
  unfold Validate. rewrite GetTranslator_en.
  fold registered.
  pose proof registerTranslations_ok as Hok.
  change registered
    with (fst (fst registered), registeredValidate, registeredTranslator).
  rewrite Hok.
  unfold Validator.Struct. rewrite validateStruct_violations.
  destruct (violations isURL c) as [|r rs]; [reflexivity |].
  change (collect registeredValidate registeredTranslator
            (map ruleFieldError (r :: rs))
          = combined (map violationMessage (r :: rs))).
  rewrite collect_combined, map_map.
  f_equal. apply map_ext. intros r'. apply Translate_rule.
Qed.

End Pipeline.

(** ** Shared facts about [Validate] and [Parse] *)

Lemma combined_None (msgs : list string) : combined msgs = None <-> msgs = [].
Proof. destruct msgs as [|m [|m' msgs]]; simpl; split; congruence. Qed.

Lemma combined_Some (msgs : list string) (err : error) :
  combined msgs = Some err ->
  messages err = msgs /\ Error err = GoStrings.Join msgs "; ".
Proof.
  assert (Hid : forall l, map Error (map errorString l) = l).
  { intros l. rewrite map_map. apply map_id. }
  destruct msgs as [|m [|m' msgs]]; intros H; inversion H; subst; clear H.
  - now split.
  - split.
    + change (map Error (map errorString (m :: m' :: msgs))
              = m :: m' :: msgs).
      apply Hid.
    + change (GoStrings.Join (map Error (map errorString (m :: m' :: msgs)))
                "; " = GoStrings.Join (m :: m' :: msgs) "; ").
      now rewrite Hid.
Qed.

Lemma index_absent_or_empty (cfg : gmap string string) (k : string) :
  cfg !! k = None \/ cfg !! k = Some EmptyString -> index cfg k = EmptyString.
Proof. unfold index. now intros [-> | ->]. Qed.

Section Facts.

Variable isURL : string -> bool.

Lemma violations_In (c : Config) (r : Rule) :
  In r (violations isURL c) <-> violated isURL c r = true.
Proof.
  unfold violations. rewrite filter_In. split; [now intros [_ H] |].
  intros H. split; [| exact H]. destruct r; simpl; auto.
Qed.

Lemma Validate_None (c : Config) :
  Validate isURL c = None <-> violations isURL c = [].
Proof.
  rewrite Validate_combined, combined_None.
  split; [apply map_eq_nil | now intros ->].
Qed.

Lemma Validate_Some (c : Config) (err : error) :
  Validate isURL c = Some err ->
  messages err = map violationMessage (violations isURL c)
  /\ Error err
     = GoStrings.Join (map violationMessage (violations isURL c)) "; ".
Proof. rewrite Validate_combined. apply combined_Some. Qed.

(** A violated rule makes [Validate] fail, and the text of the error
    contains the message of every violated rule. *)
Lemma Validate_violated (c : Config) (r0 : Rule) :
  violated isURL c r0 = true ->
  exists err,
    Validate isURL c = Some err
    /\ forall r, violated isURL c r = true ->
                 GoStrings.Contains (Error err) (violationMessage r) = true.
Proof.
  intros H0. destruct (Validate isURL c) as [err|] eqn:E.
  - exists err. split; [reflexivity |]. intros r Hr.
    destruct (Validate_Some _ _ E) as [_ ->].
    apply Contains_Join, in_map, violations_In, Hr.
  - apply Validate_None in E. apply violations_In in H0.
    rewrite E in H0. destruct H0.
Qed.

Lemma Validate_valid (c : Config) :
  URL c <> EmptyString -> isURL (URL c) = true ->
  Utf8.RuneCountInString (Table c) <= 63 ->
  Utf8.RuneCountInString (Key c) <= 63 ->
  Validate isURL c = None.
Proof.
  intros Hu Hv Ht Hk. apply Validate_None.
  unfold violations, rules. simpl.
  apply String.eqb_neq in Hu. rewrite Hu, Hv. simpl.
  apply Nat.ltb_ge in Ht, Hk. now rewrite Ht, Hk.
Qed.

Lemma Parse_rawConfig (cfg : gmap string string) :
  Parse isURL cfg
  = match Validate isURL (rawConfig cfg) with
    | Some err => (zeroConfig, Some err)
    | None => (rawConfig cfg, None)
    end.
Proof. reflexivity. Qed.

Lemma Parse_violated (cfg : gmap string string) (r0 : Rule) :
  violated isURL (rawConfig cfg) r0 = true ->
  exists err,
    Parse isURL cfg = (zeroConfig, Some err)
    /\ GoStrings.Contains (Error err) (violationMessage r0) = true.
Proof.
  intros H. destruct (Validate_violated _ _ H) as (err & E & Hall).
  exists err. rewrite Parse_rawConfig, E. split; [reflexivity |].
  now apply Hall.
Qed.

Lemma Parse_valid (cfg : gmap string string) :
  index cfg ConfigKeyURL <> EmptyString ->
  isURL (index cfg ConfigKeyURL) = true ->
  Utf8.RuneCountInString (index cfg ConfigKeyTable) <= 63 ->
  Utf8.RuneCountInString (index cfg ConfigKeyKey) <= 63 ->
  Parse isURL cfg = (rawConfig cfg, None).
Proof.
  intros Hu Hv Ht Hk. rewrite Parse_rawConfig.
  now rewrite (Validate_valid (rawConfig cfg) Hu Hv Ht Hk).
Qed.

End Facts.

(** ** Aggregation and the form of the messages *)

Section Aggregation.

Variable isURL : string -> bool.

Lemma violations_empty_url (c : Config) :
  URL c = EmptyString ->
  violations isURL c
  = UrlRequired :: List.filter (violated isURL c) [TableMax; KeyMax].
Proof.
  intros Hu. unfold violations, rules.
  cbn [List.filter violated]. now rewrite Hu.
Qed.

(** C1: a configuration that violates one or more rules makes [Validate]
    return one error whose text contains the message of every violated
    rule (violations of different fields are all collected), and [Parse]
    of any raw input that yields this configuration returns that same
    error. *)
Theorem Validate_reports_every_violation (c : Config) :
  (exists r, violated isURL c r = true) ->
  exists err,
    Validate isURL c = Some err
    /\ (forall r, violated isURL c r = true ->
                  GoStrings.Contains (Error err) (violationMessage r) = true)
    /\ (forall cfg, rawConfig cfg = c ->
                    Parse isURL cfg = (zeroConfig, Some err)).
Proof.
  intros [r0 H0].
  destruct (Validate_violated isURL c r0 H0) as (err & E & Hall).
  exists err. split; [exact E |]. split; [exact Hall |].
  intros cfg <-. now rewrite Parse_rawConfig, E.
Qed.

(** C2 (amended): every message of the error returned by [Validate] is
    the message of a violated rule and has the form
    ["<field>" config value <reason>]: the field name in lower case
    between double quotes, and the reason [must be set] for Required,
    [must be a valid url] for InvalidURL and [is too long] for TooLong.
    The text of the error is these messages joined by [; ]. *)
Theorem Validate_message_form (c : Config) (err : error) :
  Validate isURL c = Some err ->
  (forall m, In m (messages err) ->
             exists r, violated isURL c r = true
                       /\ m = quoted (ruleField r) ++ " config value "
                                ++ ruleReason r
                       /\ ruleField r = GoStrings.ToLower (ruleStructField r))
  /\ Error err = GoStrings.Join (messages err) "; ".
Proof.
  intros E. destruct (Validate_Some isURL c err E) as [Hm Ht].
  split.
  - intros m Hin. rewrite Hm in Hin.
    apply in_map_iff in Hin as (r & <- & Hr).
    exists r. split; [now apply violations_In |].
    split; [reflexivity | now destruct r].
  - now rewrite Hm.
Qed.

(** C6: the messages of the error returned by [Validate] are those of
    the violated rules in the order of the fields [url], [table], [key],
    and the text of the error lists them in that order; the result is a
    function of the configuration alone, so the order is the same on
    every call. *)
Theorem Validate_field_order (c : Config) (err : error) :
  Validate isURL c = Some err ->
  messages err
  = map violationMessage
      (List.filter (violated isURL c)
         [UrlRequired; UrlValid; TableMax; KeyMax])
  /\ Error err = GoStrings.Join (messages err) "; ".
Proof.
  intros E. destruct (Validate_Some isURL c err E) as [Hm Ht].
  split; [exact Hm | now rewrite Hm].
Qed.

(** C10: [Validate] returns an error exactly when one of the four field
    rules is violated; the translator for [en] is always found and the
    registration of the translations never fails, so the two internal
    error returns are never taken. *)
Theorem Validate_error_iff_violation (c : Config) :
  ((exists err, Validate isURL c = Some err)
   <-> (exists r, In r rules /\ violated isURL c r = true))
  /\ (exists uniTranslator,
        UT.GetTranslator (UT.New En.New [En.New]) "en"
        = (Some uniTranslator, true)
        /\ fst (fst (registerTranslations Validator.New uniTranslator))
           = None)
  /\ Validate isURL c <> Some (errorString "translator not found").
Proof.
  split; [| split].
  - split.
    + intros [err E].
      destruct (violations isURL c) as [|r rs] eqn:Hv.
      * apply Validate_None in Hv. congruence.
      * exists r. rewrite <- violations_In, Hv.
        split; [destruct r; simpl; auto | now left].
    + intros (r & _ & Hr).
      destruct (Validate_violated isURL c r Hr) as (err & E & _).
      now exists err.
  - exists (UT.newTranslator En.New).
    split; [apply GetTranslator_en | apply registerTranslations_ok].
  - intros E. destruct (Validate_Some isURL c _ E) as [Hm _].
    assert (Hin : In "translator not found"
                    (map violationMessage (violations isURL c))).
    { rewrite <- Hm. now left. }
    apply in_map_iff in Hin as (r & Hr & _).
    destruct r; vm_compute in Hr; discriminate.
Qed.

End Aggregation.

(** Witness of C1: no [url] and a table of 64 characters; both messages
    are in the text of the one error. *)
Lemma Validate_reports_every_violation_witness :
  exists err,
    Validate Url.hasScheme (rawConfig missingURLLongTable) = Some err
    /\ GoStrings.Contains (Error err) (violationMessage UrlRequired) = true
    /\ GoStrings.Contains (Error err) (violationMessage TableMax) = true
    /\ Parse Url.hasScheme missingURLLongTable = (zeroConfig, Some err).
Proof.
  destruct (Validate_reports_every_violation Url.hasScheme
              (rawConfig missingURLLongTable)
              (ex_intro _ UrlRequired eq_refl))
    as (err & E & Hall & HP).
  exists err. split; [exact E |].
  split; [apply Hall; reflexivity |].
  split; [apply Hall; vm_compute; reflexivity |].
  apply HP. reflexivity.
Defined.

(** Counterexample to C2 as stated: the message for a missing [url] has
    double quotes around the field name, so it is not of the form
    [<field> config value <reason>] for any rule. *)
Lemma Validate_message_form_counterexample :
  Validate Url.hasScheme zeroConfig
  = Some (errorString (quoted "url" ++ " config value must be set"))
  /\ (forall r, quoted "url" ++ " config value must be set" <> specMessage r).
Proof.
  split; [vm_compute; reflexivity |].
  intros r; destruct r; vm_compute; discriminate.
Qed.

(** Witness of C2: the two messages for a missing [url] and a long table. *)
Lemma Validate_message_form_witness :
  exists err,
    Validate Url.hasScheme (rawConfig missingURLLongTable) = Some err
    /\ (forall m, In m (messages err) ->
                  exists r, violated Url.hasScheme
                              (rawConfig missingURLLongTable) r = true
                            /\ m = quoted (ruleField r) ++ " config value "
                                     ++ ruleReason r
                            /\ ruleField r
                               = GoStrings.ToLower (ruleStructField r))
    /\ Error err = GoStrings.Join (messages err) "; ".
Proof.
  eexists. split; [vm_compute; reflexivity |].
  apply (Validate_message_form Url.hasScheme (rawConfig missingURLLongTable)).
  vm_compute. reflexivity.
Defined.

(** Witness of C6: an invalid [url], a long table and a long key are
    reported in this order. *)
Lemma Validate_field_order_witness :
  exists err,
    Validate Url.hasScheme
      {| URL := "not a url"; Table := GoStrings.Repeat "t" 64;
         Key := GoStrings.Repeat "k" 64 |} = Some err
    /\ messages err
       = [violationMessage UrlValid; violationMessage TableMax;
          violationMessage KeyMax]
    /\ Error err
       = violationMessage UrlValid ++ "; " ++ violationMessage TableMax
           ++ "; " ++ violationMessage KeyMax.
Proof.
  eexists. split; [vm_compute; reflexivity |].
  pose proof (Validate_field_order Url.hasScheme
                {| URL := "not a url"; Table := GoStrings.Repeat "t" 64;
                   Key := GoStrings.Repeat "k" 64 |} _
                ltac:(vm_compute; reflexivity)) as [Hm Ht].
  split; [rewrite Hm | rewrite Ht]; vm_compute; reflexivity.
Defined.

(** ** Parsing a raw mapping *)

Section Parsing.

Variable isURL : string -> bool.

(** C3 (amended): when the key [url] is absent or maps to the empty
    string, [Parse] fails and the text of the error contains
    ["url" config value must be set], the field name being between
    double quotes. *)
Theorem Parse_url_required (cfg : gmap string string) :
  cfg !! "url" = None \/ cfg !! "url" = Some EmptyString ->
  exists err,
    Parse isURL cfg = (zeroConfig, Some err)
    /\ GoStrings.Contains (Error err)
         (quoted "url" ++ " config value must be set") = true.
Proof.
  intros H. apply index_absent_or_empty in H.
  apply (Parse_violated isURL cfg UrlRequired).
  unfold violated, rawConfig, URL, ConfigKeyURL. now rewrite H.
Qed.

(** C4 (amended): a [url] that is not empty and not a valid URL makes
    [Parse] fail with a text that contains
    ["url" config value must be a valid url] (field name between double
    quotes); an empty [url] is reported as not set and never as an
    invalid URL. *)
Theorem Parse_url_invalid (cfg : gmap string string) :
  (index cfg "url" <> EmptyString /\ isURL (index cfg "url") = false ->
   exists err,
     Parse isURL cfg = (zeroConfig, Some err)
     /\ GoStrings.Contains (Error err)
          (quoted "url" ++ " config value must be a valid url") = true)
  /\ (index cfg "url" = EmptyString ->
      exists err,
        Parse isURL cfg = (zeroConfig, Some err)
        /\ GoStrings.Contains (Error err)
             (quoted "url" ++ " config value must be set") = true
        /\ GoStrings.Contains (Error err) "must be a valid url" = false).
Proof.
  split.
  - intros [Hne Hinv].
    apply (Parse_violated isURL cfg UrlValid).
    unfold violated, rawConfig, URL, ConfigKeyURL.
    apply String.eqb_neq in Hne. now rewrite Hne, Hinv.
  - intros He. rewrite Parse_rawConfig, Validate_combined.
    rewrite (violations_empty_url isURL (rawConfig cfg) He).
    cbn [List.filter].
    destruct (violated isURL (rawConfig cfg) TableMax);
      destruct (violated isURL (rawConfig cfg) KeyMax);
      eexists; (split; [reflexivity |]); split; vm_compute; reflexivity.
Qed.

(** C5 (amended): lengths are counted in characters.  With a valid
    [url] and a key of at most 63 characters, a table of exactly 63
    characters is accepted; a table of 64 characters makes [Parse] fail
    with a text that contains ["table" config value is too long] (field
    name between double quotes).  The same holds with the roles of
    [table] and [key] exchanged. *)
Theorem Parse_length_boundary (cfg : gmap string string) :
  let valid := index cfg "url" <> EmptyString
               /\ isURL (index cfg "url") = true in
  let tableLen := Utf8.RuneCountInString (index cfg "table") in
  let keyLen := Utf8.RuneCountInString (index cfg "key") in
  (valid -> tableLen = 63 -> keyLen <= 63 ->
   Parse isURL cfg = (rawConfig cfg, None))
  /\ (tableLen = 64 ->
      exists err,
        Parse isURL cfg = (zeroConfig, Some err)
        /\ GoStrings.Contains (Error err)
             (quoted "table" ++ " config value is too long") = true)
  /\ (valid -> keyLen = 63 -> tableLen <= 63 ->
      Parse isURL cfg = (rawConfig cfg, None))
  /\ (keyLen = 64 ->
      exists err,
        Parse isURL cfg = (zeroConfig, Some err)
        /\ GoStrings.Contains (Error err)
             (quoted "key" ++ " config value is too long") = true).
Proof.
  intros valid tableLen keyLen. subst valid tableLen keyLen.
  split; [| split; [| split]].
  - intros [Hu Hv] Ht Hk. apply Parse_valid; auto.
    change ConfigKeyTable with "table". lia.
  - intros Ht. apply (Parse_violated isURL cfg TableMax).
    unfold violated, rawConfig, Table, ConfigKeyTable. now rewrite Ht.
  - intros [Hu Hv] Hk Ht. apply Parse_valid; auto.
    change ConfigKeyKey with "key". lia.
  - intros Hk. apply (Parse_violated isURL cfg KeyMax).
    unfold violated, rawConfig, Key, ConfigKeyKey. now rewrite Hk.
Qed.

(** C7 (amended): when [url] is a valid non-empty URL and [table] and
    [key] have at most 63 characters each, [Parse] succeeds and returns
    the configuration whose fields are the raw values at the three keys,
    unchanged (nothing is trimmed; an absent key gives the empty
    string). *)
Theorem Parse_valid_identity (cfg : gmap string string) :
  index cfg "url" <> EmptyString ->
  isURL (index cfg "url") = true ->
  Utf8.RuneCountInString (index cfg "table") <= 63 ->
  Utf8.RuneCountInString (index cfg "key") <= 63 ->
  Parse isURL cfg
  = ({| URL := index cfg "url"; Table := index cfg "table";
        Key := index cfg "key" |}, None).
Proof. intros Hu Hv Ht Hk. now apply Parse_valid. Qed.

(** C8: [Parse] depends only on the values at the keys [url], [table]
    and [key], an absent key counting as the empty string: two raw
    mappings that agree there give the same result, whatever other keys
    they hold.  (As a function, [Parse] gives equal results on equal
    inputs.) *)
Theorem Parse_depends_on_three_keys (cfg1 cfg2 : gmap string string) :
  index cfg1 "url" = index cfg2 "url" ->
  index cfg1 "table" = index cfg2 "table" ->
  index cfg1 "key" = index cfg2 "key" ->
  Parse isURL cfg1 = Parse isURL cfg2.
Proof.
  intros Hu Ht Hk. rewrite !Parse_rawConfig. unfold rawConfig.
  change ConfigKeyURL with "url". change ConfigKeyTable with "table".
  change ConfigKeyKey with "key". now rewrite Hu, Ht, Hk.
Qed.

(** C9: when [Parse] returns an error, the configuration it returns is
    the zero value: the three fields are empty, whatever the raw input
    held. *)
Theorem Parse_error_zero_config (cfg : gmap string string) (err : error) :
  snd (Parse isURL cfg) = Some err ->
  fst (Parse isURL cfg) = zeroConfig
  /\ URL (fst (Parse isURL cfg)) = EmptyString
  /\ Table (fst (Parse isURL cfg)) = EmptyString
  /\ Key (fst (Parse isURL cfg)) = EmptyString.
Proof.
  rewrite Parse_rawConfig.
  destruct (Validate isURL (rawConfig cfg)); simpl; [auto | discriminate].
Qed.

End Parsing.

(** ** The properties on concrete inputs *)

(** Counterexample to C3 as stated: without [url] the text of the error
    is ["url" config value must be set], which does not contain
    [url config value must be set] (a double quote follows [url]). *)
Lemma Parse_url_required_counterexample :
  (∅ : gmap string string) !! "url" = None
  /\ Parse Url.hasScheme ∅
     = (zeroConfig,
        Some (errorString (quoted "url" ++ " config value must be set")))
  /\ GoStrings.Contains
       (Error (errorString (quoted "url" ++ " config value must be set")))
       "url config value must be set" = false.
Proof. repeat split; vm_compute; reflexivity. Qed.

(** Witness of C3: a raw input without [url]. *)
Lemma Parse_url_required_witness :
  exists err,
    Parse Url.hasScheme missingURLLongTable = (zeroConfig, Some err)
    /\ GoStrings.Contains (Error err)
         (quoted "url" ++ " config value must be set") = true.
Proof.
  apply (Parse_url_required Url.hasScheme missingURLLongTable).
  left. vm_compute. reflexivity.
Defined.

(** Counterexample to C4 as stated: for the url [not a url] the text of
    the error is ["url" config value must be a valid url], which does not
    contain [url config value must be a valid url]. *)
Lemma Parse_url_invalid_counterexample :
  index notAURL "url" = "not a url"
  /\ Url.hasScheme "not a url" = false
  /\ Parse Url.hasScheme notAURL
     = (zeroConfig,
        Some (errorString
                (quoted "url" ++ " config value must be a valid url")))
  /\ GoStrings.Contains
       (Error (errorString
                 (quoted "url" ++ " config value must be a valid url")))
       "url config value must be a valid url" = false.
Proof. repeat split; vm_compute; reflexivity. Qed.

(** Witness of C4: the url [not a url], and no url at all. *)
Lemma Parse_url_invalid_witness :
  (exists err,
     Parse Url.hasScheme notAURL = (zeroConfig, Some err)
     /\ GoStrings.Contains (Error err)
          (quoted "url" ++ " config value must be a valid url") = true)
  /\ (exists err,
        Parse Url.hasScheme ∅ = (zeroConfig, Some err)
        /\ GoStrings.Contains (Error err)
             (quoted "url" ++ " config value must be set") = true
        /\ GoStrings.Contains (Error err) "must be a valid url" = false).
Proof.
  split.
  - apply (proj1 (Parse_url_invalid Url.hasScheme notAURL)).
    split; [vm_compute; discriminate | vm_compute; reflexivity].
  - apply (proj2 (Parse_url_invalid Url.hasScheme ∅)). reflexivity.
Defined.

(** Counterexample to C5 as stated: with a valid [url] and a table of
    exactly 63 characters [Parse] still fails when the key has 64
    characters; and for a table of 64 characters the text of the error is
    ["table" config value is too long], which does not contain
    [table config value is too long]. *)
Lemma Parse_length_boundary_counterexample :
  (Url.hasScheme (index table63key64 "url") = true
   /\ Utf8.RuneCountInString (index table63key64 "table") = 63
   /\ Parse Url.hasScheme table63key64
      = (zeroConfig,
         Some (errorString (quoted "key" ++ " config value is too long"))))
  /\ (Utf8.RuneCountInString
        (index (withTable (GoStrings.Repeat "a" 64)) "table") = 64
      /\ Parse Url.hasScheme (withTable (GoStrings.Repeat "a" 64))
         = (zeroConfig,
            Some (errorString
                    (quoted "table" ++ " config value is too long")))
      /\ GoStrings.Contains
           (Error (errorString
                     (quoted "table" ++ " config value is too long")))
           "table config value is too long" = false).
Proof. repeat split; vm_compute; reflexivity. Qed.

(** Witness of C5: tables and keys of 63 and of 64 characters. *)
Lemma Parse_length_boundary_witness :
  Parse Url.hasScheme (withTable (GoStrings.Repeat "a" 63))
  = (rawConfig (withTable (GoStrings.Repeat "a" 63)), None)
  /\ (exists err,
        Parse Url.hasScheme (withTable (GoStrings.Repeat "a" 64))
        = (zeroConfig, Some err)
        /\ GoStrings.Contains (Error err)
             (quoted "table" ++ " config value is too long") = true)
  /\ Parse Url.hasScheme (withKey (GoStrings.Repeat "k" 63))
     = (rawConfig (withKey (GoStrings.Repeat "k" 63)), None)
  /\ (exists err,
        Parse Url.hasScheme (withKey (GoStrings.Repeat "k" 64))
        = (zeroConfig, Some err)
        /\ GoStrings.Contains (Error err)
             (quoted "key" ++ " config value is too long") = true).
Proof.
  split; [| split; [| split]].
  - apply (proj1 (Parse_length_boundary Url.hasScheme
                    (withTable (GoStrings.Repeat "a" 63)))).
    + split; [vm_compute; discriminate | vm_compute; reflexivity].
    + vm_compute. reflexivity.
    + vm_compute. lia.
  - apply (proj1 (proj2 (Parse_length_boundary Url.hasScheme
                           (withTable (GoStrings.Repeat "a" 64))))).
    vm_compute. reflexivity.
  - apply (proj1 (proj2 (proj2 (Parse_length_boundary Url.hasScheme
                                  (withKey (GoStrings.Repeat "k" 63)))))).
    + split; [vm_compute; discriminate | vm_compute; reflexivity].
    + vm_compute. reflexivity.
    + vm_compute. lia.
  - apply (proj2 (proj2 (proj2 (Parse_length_boundary Url.hasScheme
                                  (withKey (GoStrings.Repeat "k" 64)))))).
    vm_compute. reflexivity.
Defined.

(** Lengths are counted in characters, not bytes: a table of 62 letters
    and one two-byte character has 64 bytes and 63 characters, and is
    accepted. *)
Example table_of_64_bytes_63_characters :
  let table :=
    GoStrings.Repeat "a" 62
      ++ String (ascii_of_nat 195) (String (ascii_of_nat 169) EmptyString) in
  String.length table = 64
  /\ Utf8.RuneCountInString table = 63
  /\ Parse Url.hasScheme (withTable table)
     = (rawConfig (withTable table), None).
Proof. repeat split; vm_compute; reflexivity. Qed.

(** Counterexample to C7 as stated: a table with a leading space is
    returned as it is, not trimmed. *)
Lemma Parse_valid_identity_counterexample :
  Url.hasScheme (index (withTable " t1") "url") = true
  /\ Utf8.RuneCountInString (index (withTable " t1") "table") <= 63
  /\ Utf8.RuneCountInString (index (withTable " t1") "key") <= 63
  /\ Parse Url.hasScheme (withTable " t1")
     = ({| URL := exampleURL; Table := " t1"; Key := EmptyString |}, None)
  /\ GoStrings.TrimSpace (index (withTable " t1") "table") = "t1"
  /\ Table (fst (Parse Url.hasScheme (withTable " t1")))
     <> GoStrings.TrimSpace (index (withTable " t1") "table").
Proof.
  repeat split; try (vm_compute; reflexivity).
  - vm_compute. lia.
  - vm_compute. lia.
  - vm_compute. discriminate.
Qed.

(** Witness of C7: the example of the specification. *)
Lemma Parse_valid_identity_witness :
  Parse Url.hasScheme exampleInput
  = ({| URL := "https://materialize.example.com"; Table := "t1";
        Key := "k1" |}, None).
Proof.
  apply (Parse_valid_identity Url.hasScheme exampleInput).
  - vm_compute. discriminate.
  - vm_compute. reflexivity.
  - vm_compute. lia.
  - vm_compute. lia.
Defined.

(** Witness of C8: an unrecognized key does not change the result. *)
Lemma Parse_depends_on_three_keys_witness :
  Parse Url.hasScheme (<["password" := "secret"]> exampleInput)
  = Parse Url.hasScheme exampleInput.
Proof.
  apply (Parse_depends_on_three_keys Url.hasScheme
           (<["password" := "secret"]> exampleInput) exampleInput);
    vm_compute; reflexivity.
Defined.

(** Witness of C9: the long table of the failing input is not returned. *)
Lemma Parse_error_zero_config_witness :
  fst (Parse Url.hasScheme missingURLLongTable) = zeroConfig
  /\ URL (fst (Parse Url.hasScheme missingURLLongTable)) = EmptyString
  /\ Table (fst (Parse Url.hasScheme missingURLLongTable)) = EmptyString
  /\ Key (fst (Parse Url.hasScheme missingURLLongTable)) = EmptyString.
Proof.
  apply (Parse_error_zero_config Url.hasScheme missingURLLongTable
           (multiError
              [errorString (violationMessage UrlRequired);
               errorString (violationMessage TableMax)])).
  vm_compute. reflexivity.
Defined.

(** ** Further properties of [registerTranslations] *)

(** With [override] set, [Add] replaces whatever the key held. *)
Lemma Add_override (t : UT.Translator) (key txt : string) (idxs : list nat) :
  GoStrings.Count txt "{" = GoStrings.Count txt "}" ->
  UT.addIndexes key txt 0 (GoStrings.Count txt "{") [] = inr idxs ->
  UT.Add t key txt true
  = (None, {| UT.Locale := UT.Locale t;
              UT.translations :=
                <[key := {| UT.text := txt; UT.indexes := idxs |}]>
                  (UT.translations t) |}).
Proof.
  intros Hc Hi. unfold UT.Add. rewrite andb_false_r.
  rewrite Hc, Nat.eqb_refl. simpl negb. cbv iota.
  rewrite <- Hc, Hi. reflexivity.
Qed.

(** The state after [registerTranslations], whatever the state before. *)
Lemma registerTranslations_result (v : Validator.Validate)
    (t : UT.Translator) :
  registerTranslations v t
  = (None,
     {| Validator.transTagFunc :=
          <["max" := translationFn "max"]>
            (<["url" := translationFn "url"]>
               (<["required" := translationFn "required"]>
                  (Validator.transTagFunc v))) |},
     {| UT.Locale := UT.Locale t;
        UT.translations :=
          <["max" := {| UT.text := maxText; UT.indexes := [1; 4] |}]>
            (<["url" := {| UT.text := urlText; UT.indexes := [1; 4] |}]>
               (<["required" :=
                    {| UT.text := requiredText; UT.indexes := [1; 4] |}]>
                  (UT.translations t))) |}).
Proof.
  unfold registerTranslations, Validator.RegisterTranslation.
  rewrite (Add_override t "required" requiredText [1; 4]) by reflexivity.
  rewrite (Add_override _ "url" urlText [1; 4]) by reflexivity.
  rewrite (Add_override _ "max" maxText [1; 4]) by reflexivity.
  reflexivity.
Qed.

(** X1: [registerTranslations] succeeds on every validator and translator,
    also when translations for the three tags are already registered (they
    are overridden).  Afterwards the field error of each rule translates
    to the rule's message, the translations and translation functions of
    all other keys are as before, and so is the locale. *)
Theorem registerTranslations_any_state (v : Validator.Validate)
    (t : UT.Translator) :
  exists v' t',
    registerTranslations v t = (None, v', t')
    /\ (forall r, Validator.Translate v' (ruleFieldError r) t'
                  = violationMessage r)
    /\ (forall key, key <> "required" -> key <> "url" -> key <> "max" ->
                    UT.translations t' !! key = UT.translations t !! key
                    /\ Validator.transTagFunc v' !! key
                       = Validator.transTagFunc v !! key)
    /\ UT.Locale t' = UT.Locale t.
Proof.
  eexists. eexists. split; [apply registerTranslations_result |].
  split; [| split; [| reflexivity]].
  - intros r. unfold Validator.Translate. simpl.
    destruct r; simpl; simplify_map_eq; unfold translationFn, UT.T; simpl;
      simplify_map_eq; reflexivity.
  - intros key H1 H2 H3. simpl. split; now simplify_map_eq.
Qed.

(** X2: registering the translations a second time changes nothing: the
    validator and the translator are the same as after the first time. *)
Theorem registerTranslations_idempotent (v : Validator.Validate)
    (t : UT.Translator) :
  registerTranslations (snd (fst (registerTranslations v t)))
    (snd (registerTranslations v t))
  = registerTranslations v t.
Proof.
  rewrite (registerTranslations_result v t). cbn [fst snd].
  rewrite registerTranslations_result. cbn [UT.Locale UT.translations
    Validator.transTagFunc].
  f_equal; [f_equal |]; f_equal; apply map_eq; intros k;
    (destruct (decide (k = "max")) as [->|]; [by simplify_map_eq |]);
    (destruct (decide (k = "url")) as [->|]; [by simplify_map_eq |]);
    (destruct (decide (k = "required")) as [->|]; by simplify_map_eq).
Qed.

(** ** Bytes and characters *)

Lemma runeSize_bounds (c : ascii) (rest : string) :
  1 <= Utf8.runeSize c rest <= 4.
Proof.
  unfold Utf8.runeSize, Utf8.first.
  repeat match goal with
         | |- context [if ?b then _ else _] => destruct b
         | |- context [match ?s with EmptyString => _ | String _ _ => _ end] =>
             destruct s
         end; simpl; lia.
Qed.

(** A string has at most as many runes as bytes. *)
Lemma countFrom_le_length (s : string) (skip : nat) :
  Utf8.countFrom skip s <= String.length s.
Proof.
  revert skip. induction s as [|c s IH]; intros skip; simpl; [lia |].
  destruct skip as [|k].
  - specialize (IH (Utf8.runeSize c s - 1)). lia.
  - specialize (IH k). lia.
Qed.

(** A rune has at most four bytes. *)
Lemma length_le_countFrom (s : string) (skip : nat) :
  String.length s <= 4 * Utf8.countFrom skip s + skip.
Proof.
  revert skip. induction s as [|c s IH]; intros skip; simpl; [lia |].
  destruct skip as [|k].
  - specialize (IH (Utf8.runeSize c s - 1)).
    pose proof (runeSize_bounds c s). lia.
  - specialize (IH k). lia.
Qed.

Lemma rawConfig_toMap (c : Config) : rawConfig (toMap c) = c.
Proof. destruct c as [u t k]. reflexivity. Qed.

(** ** Further properties of [Validate] and [Parse] *)

Section Further.

Variable isURL : string -> bool.

(** X3: the text of the error returned by [Validate] contains the message of
    a rule exactly when that rule is violated: no message of a rule that
    holds appears in it, not even as a part of the other messages. *)
Theorem Validate_text_contains_iff_violated (c : Config) (err : error)
    (r : Rule) :
  Validate isURL c = Some err ->
  GoStrings.Contains (Error err) (violationMessage r) = violated isURL c r.
Proof.
  rewrite Validate_combined. unfold violations, rules. cbn [List.filter].
  destruct r;
    destruct (violated isURL c UrlRequired), (violated isURL c UrlValid),
      (violated isURL c TableMax), (violated isURL c KeyMax);
    intros [= <-]; vm_compute; reflexivity.
Qed.

(** X4: the result of [Validate] depends on the configuration only through
    the set of violated rules: the values themselves (a url with
    credentials, say) never reach the error. *)
Theorem Validate_depends_on_violations_only (c1 c2 : Config) :
  (forall r, violated isURL c1 r = violated isURL c2 r) ->
  Validate isURL c1 = Validate isURL c2.
Proof.
  intros H. rewrite !Validate_combined. unfold violations.
  now rewrite (List.filter_ext _ _ H).
Qed.

(** X5: each field is reported at most once: the error holds between one and
    three messages, all different, and never both the Required and the
    InvalidURL message (the [url] tag is not run on an empty url). *)
Theorem Validate_one_message_per_field (c : Config) (err : error) :
  Validate isURL c = Some err ->
  1 <= List.length (messages err) <= 3
  /\ List.NoDup (messages err)
  /\ (In (violationMessage UrlRequired) (messages err) ->
      In (violationMessage UrlValid) (messages err) -> False).
Proof.
  intros E. destruct (Validate_Some isURL c err E) as [Hm _].
  rewrite Hm. rewrite Validate_combined in E. revert E.
  unfold violations, rules. cbn [List.filter violated].
  destruct (String.eqb (URL c) EmptyString); cbn [negb andb];
    [| destruct (isURL (URL c)); cbn [negb]];
    destruct (63 <? Utf8.RuneCountInString (Table c));
    destruct (63 <? Utf8.RuneCountInString (Key c));
    intros E; try discriminate E; clear E;
    (split; [simpl; lia |]);
    (split;
     [vm_compute;
      repeat (apply List.NoDup_cons; [simpl; intuition discriminate |]);
      apply List.NoDup_nil |]);
    vm_compute; intuition discriminate.
Qed.

(** X6: when exactly one rule is violated, [Validate] returns a plain error
    (not a combined one) whose text is exactly that rule's message, with
    no separator. *)
Theorem Validate_single_violation_exact_text (c : Config) (r : Rule) :
  violated isURL c r = true ->
  (forall r', r' <> r -> violated isURL c r' = false) ->
  Validate isURL c = Some (errorString (violationMessage r))
  /\ Error (errorString (violationMessage r))
     = quoted (ruleField r) ++ " config value " ++ ruleReason r.
Proof.
  intros Hr Hother. split; [| reflexivity].
  rewrite Validate_combined. unfold violations, rules. cbn [List.filter].
  destruct r; rewrite Hr; rewrite ?Hother by discriminate; reflexivity.
Qed.

(** X7: when [Parse] returns no error, the configuration it returns is the
    one read from the raw mapping and satisfies every rule: the url is not
    empty and is a valid URL, and table and key have at most 63
    characters. *)
Theorem Parse_success_sound (cfg : gmap string string) :
  snd (Parse isURL cfg) = None ->
  fst (Parse isURL cfg) = rawConfig cfg
  /\ index cfg "url" <> EmptyString
  /\ isURL (index cfg "url") = true
  /\ Utf8.RuneCountInString (index cfg "table") <= 63
  /\ Utf8.RuneCountInString (index cfg "key") <= 63.
Proof.
  rewrite Parse_rawConfig.
  destruct (Validate isURL (rawConfig cfg)) as [err|] eqn:E;
    [discriminate |]. intros _. split; [reflexivity |].
  apply Validate_None in E.
  assert (H : forall r, violated isURL (rawConfig cfg) r = false).
  { intros r. destruct (violated isURL (rawConfig cfg) r) eqn:Hr;
      [| reflexivity].
    apply violations_In in Hr. rewrite E in Hr. destruct Hr. }
  pose proof (H UrlRequired) as H1. pose proof (H UrlValid) as H2.
  pose proof (H TableMax) as H3. pose proof (H KeyMax) as H4.
  cbn [violated rawConfig URL Table Key] in H1, H2, H3, H4.
  change ConfigKeyURL with "url" in *.
  change ConfigKeyTable with "table" in *.
  change ConfigKeyKey with "key" in *.
  rewrite H1 in H2. cbn [negb andb] in H2.
  apply String.eqb_neq in H1. apply negb_false_iff in H2.
  apply Nat.ltb_ge in H3, H4. auto.
Qed.

(** X8: the limit is in characters, so a value of at most 63 bytes is always
    within it: with a valid url, a table and a key of at most 63 bytes
    each are accepted whatever bytes they hold. *)
Theorem Parse_accepts_short_byte_lengths (cfg : gmap string string) :
  index cfg "url" <> EmptyString ->
  isURL (index cfg "url") = true ->
  String.length (index cfg "table") <= 63 ->
  String.length (index cfg "key") <= 63 ->
  Parse isURL cfg = (rawConfig cfg, None).
Proof.
  intros Hu Hv Ht Hk. apply Parse_valid; auto.
  - pose proof (countFrom_le_length (index cfg ConfigKeyTable) 0).
    unfold Utf8.RuneCountInString.
    change ConfigKeyTable with "table" in *. lia.
  - pose proof (countFrom_le_length (index cfg ConfigKeyKey) 0).
    unfold Utf8.RuneCountInString.
    change ConfigKeyKey with "key" in *. lia.
Qed.

(** X9: a character has at most four bytes, so a table or key of more than
    252 bytes is always rejected as too long, whatever the url. *)
Theorem Parse_rejects_long_byte_lengths (cfg : gmap string string) :
  (252 < String.length (index cfg "table") ->
   exists err,
     Parse isURL cfg = (zeroConfig, Some err)
     /\ GoStrings.Contains (Error err) (violationMessage TableMax) = true)
  /\ (252 < String.length (index cfg "key") ->
      exists err,
        Parse isURL cfg = (zeroConfig, Some err)
        /\ GoStrings.Contains (Error err) (violationMessage KeyMax) = true).
Proof.
  split; intros H.
  - apply (Parse_violated isURL cfg TableMax).
    cbn [violated rawConfig Table]. apply Nat.ltb_lt.
    pose proof (length_le_countFrom (index cfg ConfigKeyTable) 0).
    unfold Utf8.RuneCountInString.
    change ConfigKeyTable with "table" in *. lia.
  - apply (Parse_violated isURL cfg KeyMax).
    cbn [violated rawConfig Key]. apply Nat.ltb_lt.
    pose proof (length_le_countFrom (index cfg ConfigKeyKey) 0).
    unfold Utf8.RuneCountInString.
    change ConfigKeyKey with "key" in *. lia.
Qed.

(** X10: every configuration that passes [Validate] is returned unchanged by
    [Parse] from the mapping that holds its three fields. *)
Theorem Parse_toMap_round_trip (c : Config) :
  Validate isURL c = None -> Parse isURL (toMap c) = (c, None).
Proof.
  intros E. rewrite Parse_rawConfig, rawConfig_toMap, E. reflexivity.
Qed.

End Further.

(** ** The further properties on concrete inputs *)

(** Witness of X3: the table message is in the text, the key message is
    not. *)
Lemma Validate_text_contains_iff_violated_witness :
  exists err,
    Validate Url.hasScheme (rawConfig missingURLLongTable) = Some err
    /\ GoStrings.Contains (Error err) (violationMessage TableMax) = true
    /\ GoStrings.Contains (Error err) (violationMessage KeyMax) = false.
Proof.
  eexists. split; [vm_compute; reflexivity |].
  split.
  - rewrite (Validate_text_contains_iff_violated Url.hasScheme
               (rawConfig missingURLLongTable) _ TableMax)
      by (vm_compute; reflexivity).
    vm_compute. reflexivity.
  - rewrite (Validate_text_contains_iff_violated Url.hasScheme
               (rawConfig missingURLLongTable) _ KeyMax)
      by (vm_compute; reflexivity).
    vm_compute. reflexivity.
Defined.

(** Witness of X4: two invalid urls and two long tables, one error. *)
Lemma Validate_depends_on_violations_only_witness :
  Validate Url.hasScheme invalidA = Validate Url.hasScheme invalidB.
Proof.
  apply (Validate_depends_on_violations_only Url.hasScheme invalidA invalidB).
  intros r. destruct r; vm_compute; reflexivity.
Defined.

(** Witness of X5: an invalid url and a long table. *)
Lemma Validate_one_message_per_field_witness :
  exists err,
    Validate Url.hasScheme invalidA = Some err
    /\ 1 <= List.length (messages err) <= 3
    /\ List.NoDup (messages err)
    /\ (In (violationMessage UrlRequired) (messages err) ->
        In (violationMessage UrlValid) (messages err) -> False).
Proof.
  eexists. split; [vm_compute; reflexivity |].
  apply (Validate_one_message_per_field Url.hasScheme invalidA).
  vm_compute. reflexivity.
Defined.

(** Witness of X6: only the url is invalid. *)
Lemma Validate_single_violation_exact_text_witness :
  Validate Url.hasScheme (rawConfig notAURL)
  = Some (errorString (violationMessage UrlValid))
  /\ Error (errorString (violationMessage UrlValid))
     = quoted "url" ++ " config value must be a valid url".
Proof.
  apply (Validate_single_violation_exact_text Url.hasScheme
           (rawConfig notAURL) UrlValid).
  - vm_compute. reflexivity.
  - intros r' Hne. destruct r'; try (vm_compute; reflexivity).
    now destruct Hne.
Defined.

(** Witness of X7: the example of the specification. *)
Lemma Parse_success_sound_witness :
  fst (Parse Url.hasScheme exampleInput) = rawConfig exampleInput
  /\ index exampleInput "url" <> EmptyString
  /\ Url.hasScheme (index exampleInput "url") = true
  /\ Utf8.RuneCountInString (index exampleInput "table") <= 63
  /\ Utf8.RuneCountInString (index exampleInput "key") <= 63.
Proof.
  apply (Parse_success_sound Url.hasScheme exampleInput).
  vm_compute. reflexivity.
Defined.

(** Witness of X8: a table of 63 bytes that are not UTF-8. *)
Lemma Parse_accepts_short_byte_lengths_witness :
  Parse Url.hasScheme rawBytesTable = (rawConfig rawBytesTable, None).
Proof.
  apply (Parse_accepts_short_byte_lengths Url.hasScheme rawBytesTable).
  - vm_compute. discriminate.
  - vm_compute. reflexivity.
  - vm_compute. lia.
  - vm_compute. lia.
Defined.

(** Witness of X9: a table and a key of 253 bytes. *)
Lemma Parse_rejects_long_byte_lengths_witness :
  (exists err,
     Parse Url.hasScheme hugeTableAndKey = (zeroConfig, Some err)
     /\ GoStrings.Contains (Error err) (violationMessage TableMax) = true)
  /\ (exists err,
        Parse Url.hasScheme hugeTableAndKey = (zeroConfig, Some err)
        /\ GoStrings.Contains (Error err) (violationMessage KeyMax) = true).
Proof.
  split.
  - apply (proj1 (Parse_rejects_long_byte_lengths Url.hasScheme
                    hugeTableAndKey)).
    vm_compute. lia.
  - apply (proj2 (Parse_rejects_long_byte_lengths Url.hasScheme
                    hugeTableAndKey)).
    vm_compute. lia.
Defined.

(** Witness of X10: the example of the specification. *)
Lemma Parse_toMap_round_trip_witness :
  Parse Url.hasScheme (toMap (rawConfig exampleInput))
  = (rawConfig exampleInput, None).
Proof.
  apply (Parse_toMap_round_trip Url.hasScheme (rawConfig exampleInput)).
  vm_compute. reflexivity.
Defined.
